(** * speech_to_phrase.transcribe: the transcription dispatcher and the
      command-line audio stream

    A shallow embedding of [src/speech_to_phrase/transcribe.py]:
    - [transcribe], the coroutine that routes a call to one of the two
      imported backend coroutines by [model.type];
    - the model lookup at the start of [main];
    - the [audio_stream] generator [main] builds over a [wave.Wave_read].

    Coroutines are run to completion: a task is a function from the
    machine state to an outcome (a returned value or a raised exception)
    and the machine state after it. Audio streams are objects on a heap,
    passed by reference, so that what a callee consumes is seen by the
    caller. *)

From Stdlib Require Import ZArith Lia.
From stdpp Require Import base gmap strings list pretty.

Local Open Scope string_scope.

(** ** Python values the module handles *)

(** [bytes] *)
Definition bytes := list Byte.byte.

(** Truth value of a [bytes] object: [not chunk] holds of [b''] only. *)
Definition bytes_not (chunk : bytes) : bool :=
  match chunk with
  | [] => true
  | _ :: _ => false
  end.

(** Exceptions: the class and the message. [TranscribingError] is imported
    from [.const]; [AssertionError] is what a failed [assert] raises; any
    other class is known by its name. *)
Inductive ExcClass : Type :=
| TranscribingError
| AssertionError
| OtherError (name : string).

Record Exc : Type := mkExc { exc_class : ExcClass; exc_msg : string }.

#[global] Instance ExcClass_eq_dec : EqDecision ExcClass.
Proof. solve_decision. Defined.

#[global] Instance Exc_eq_dec : EqDecision Exc.
Proof. solve_decision. Defined.

(** What a call comes to: it returns a value or raises. *)
Inductive Outcome (A : Type) : Type :=
| Returned (a : A)
| Raised (e : Exc).

Arguments Returned {A} a.
Arguments Raised {A} e.

(** [sub] occurs in [s]. *)
Definition carries (sub s : string) : Prop :=
  exists pre post : string, s = pre +:+ sub +:+ post.

(** ** [.models] and [.const] *)

(** Modelled from the spec: [ModelType] is declared in [models.py], which is
    not among the sources. The spec gives a closed set of backend kinds, "at
    minimum" two, "extensible": here the two members [transcribe] names and
    any further kind, known by its name. *)
Inductive ModelType : Type :=
| KALDI
| COQUI_STT
| OTHER_TYPE (name : string).

#[global] Instance ModelType_eq_dec : EqDecision ModelType.
Proof. solve_decision. Defined.

(** [a == b] on model types. *)
Definition ModelType_eqb (a b : ModelType) : bool := bool_decide (a = b).

(** Modelled from the spec: [Model] is declared in [models.py]. The spec's
    Model Descriptor has an [id], a [type] and backend-specific artifact
    paths that the dispatcher does not look at. *)
Record Model : Type := mkModel {
  id : string;
  type : ModelType;
  artifacts : list string
}.

(** [Settings], with the fields [main] passes to its constructor. *)
Record Settings : Type := mkSettings {
  models_dir : string;
  train_dir : string;
  tools_dir : string;
  custom_sentences_dirs : list string;
  hass_token : string;
  hass_websocket_uri : string;
  retrain_on_connect : bool
}.

(** ** The machine *)

(** A reference to an object on the heap. *)
Definition loc := N.

(** The two coroutines imported from [.transcribe_kaldi] and
    [.transcribe_coqui_stt]. *)
Inductive Backend : Type :=
| Kaldi
| CoquiStt.

#[global] Instance Backend_eq_dec : EqDecision Backend.
Proof. solve_decision. Defined.

(** One invocation of a backend, with the arguments it was given. *)
Record Call : Type := mkCall {
  callee : Backend;
  call_model : Model;
  call_settings : Settings;
  call_audio : loc
}.

Section Dispatcher.

(** The state of an audio stream object and the rest of the world the
    backends act on (files, subprocesses) are not the dispatcher's
    business. *)
Context {Stream World : Type}.

(** What the backends can read and change. *)
Record Store : Type := mkStore {
  streams : gmap loc Stream;
  world : World
}.

(** The machine state: the store, and the record of backend invocations
    made so far. *)
Record Machine : Type := mkMachine {
  store : Store;
  calls : list Call
}.

(** A coroutine run to completion. *)
Definition Task (A : Type) : Type := Machine -> Outcome A * Machine.

Definition ret {A : Type} (a : A) : Task A := fun mu => (Returned a, mu).

Definition raise {A : Type} (e : Exc) : Task A := fun mu => (Raised e, mu).

(** [await]: an exception of the awaited task passes through, with the
    state it left. *)
Definition bind {A B : Type} (t : Task A) (k : A -> Task B) : Task B :=
  fun mu =>
    match t mu with
    | (Returned a, mu') => k a mu'
    | (Raised e, mu') => (Raised e, mu')
    end.

(** A backend coroutine as a function of its three arguments. *)
Definition BackendFn : Type :=
  Model -> Settings -> loc -> Store -> Outcome string * Store.

(** The text [{model.type}] stands for in the f-string of line 28; the
    declaration of [ModelType] decides it. *)
Variable format_type : ModelType -> string.

Variable transcribe_kaldi : BackendFn.
Variable transcribe_coqui_stt : BackendFn.

Definition backend_fn (b : Backend) : BackendFn :=
  match b with
  | Kaldi => transcribe_kaldi
  | CoquiStt => transcribe_coqui_stt
  end.

(** Calling and awaiting backend [b]: the invocation is recorded, the
    backend runs on the store. *)
Definition await_backend (b : Backend) (model : Model) (settings : Settings)
    (audio_stream : loc) : Task string :=
  fun mu =>
    let '(r, st) := backend_fn b model settings audio_stream (store mu) in
    (r, {| store := st;
           calls := calls mu ++ [mkCall b model settings audio_stream] |}).

(** [transcribe], lines 18-28. *)
Definition transcribe (model : Model) (settings : Settings)
    (audio_stream : loc) : Task string :=
  if ModelType_eqb (type model) KALDI then
    bind (await_backend Kaldi model settings audio_stream) ret
  else if ModelType_eqb (type model) COQUI_STT then
    bind (await_backend CoquiStt model settings audio_stream) ret
  else
    raise (mkExc TranscribingError
             ("Unexpected model type for " +:+ id model +:+ ": "
                +:+ format_type (type model))).

End Dispatcher.

Arguments Store : clear implicits.
Arguments Machine : clear implicits.
Arguments Task : clear implicits.
Arguments BackendFn : clear implicits.

(** ** [main]: resolving the model *)

(** Line 57: [next(iter(m for m in MODELS.values() if m.id == args.model),
    None)]. [MODELS] is the dict of [models.py], taken as its items in
    insertion order. *)
Definition find_model {K : Type} (MODELS : list (K * Model))
    (model_id : string) : option Model :=
  List.find (fun m => String.eqb (id m) model_id) (map snd MODELS).

(** Lines 57-58: the lookup and the [assert] on its result, as Python runs
    it unless it is started with [-O], which drops [assert] statements. *)
Definition resolve_model {K : Type} (MODELS : list (K * Model))
    (model_id : string) : Outcome Model :=
  match find_model MODELS model_id with
  | Some model => Returned model
  | None => Raised (mkExc AssertionError ("Unknown model id: " +:+ model_id))
  end.

(** ** The standard library's [wave.Wave_read], as far as [readframes]
    goes *)

(** Something with a [read(size)] method. *)
Class FileLike (F : Type) : Type :=
  read : Z -> F -> bytes * F.

Definition len (b : bytes) : Z := Z.of_nat (length b).

(** The binary file [wave.open] opens for a path, given by the bytes from
    its position onwards. A negative [size] reads to the end. *)
Record RawFile : Type := mkRawFile { rest : bytes }.

#[global] Instance RawFile_read : FileLike RawFile :=
  fun size f =>
    if (size <? 0)%Z then (rest f, mkRawFile [])
    else (take (Z.to_nat size) (rest f),
          mkRawFile (drop (Z.to_nat size) (rest f))).

(** A RIFF chunk ([chunk.Chunk]) read out of the file object [file]. *)
Record Chunk (F : Type) : Type := mkChunk {
  chunksize : Z;
  size_read : Z;
  align : bool;
  file : F
}.

Arguments mkChunk {F} chunksize size_read align file.
Arguments chunksize {F} c.
Arguments size_read {F} c.
Arguments align {F} c.
Arguments file {F} c.

(** [Chunk.read]: nothing once the chunk is read through; a negative or too
    large [size] becomes what is left of the chunk; the pad byte after an
    odd-sized chunk is read with its last data byte. *)
#[global] Instance Chunk_read {F : Type} `{FileLike F} : FileLike (Chunk F) :=
  fun size c =>
    if (chunksize c <=? size_read c)%Z then ([], c)
    else
      let size :=
        if (size <? 0)%Z then (chunksize c - size_read c)%Z else size in
      let size :=
        if (chunksize c - size_read c <? size)%Z
        then (chunksize c - size_read c)%Z else size in
      let '(data, file) := read size (file c) in
      let size_read := (size_read c + len data)%Z in
      if (size_read =? chunksize c)%Z && align c && Z.odd (chunksize c) then
        let '(dummy, file) := read 1%Z file in
        (data, mkChunk (chunksize c) (size_read + len dummy)%Z (align c) file)
      else (data, mkChunk (chunksize c) size_read (align c) file).

(** [wave] reads the [data] chunk out of the [RIFF] chunk, which reads the
    file. *)
Definition DataChunk : Type := Chunk (Chunk RawFile).

(** Bytes of the underlying file not read yet. *)
Definition raw_rest (c : DataChunk) : bytes := rest (file (file c)).

(** A [Wave_read] that [wave.open] has returned: PCM, no conversion, no seek
    pending. The header's channel count and sample width are unsigned. *)
Record Wave_read : Type := mkWave_read {
  _nchannels : N;
  _sampwidth : N;
  _soundpos : Z;
  _data_chunk : DataChunk
}.

Definition _framesize (f : Wave_read) : Z :=
  Z.of_N (_nchannels f * _sampwidth f).

(** [f.readframes(nframes)] on a little-endian machine. *)
Definition readframes (f : Wave_read) (nframes : Z) : bytes * Wave_read :=
  if (nframes =? 0)%Z then ([], f)
  else
    let '(data, chunk) :=
      read (nframes * _framesize f)%Z (_data_chunk f) in
    (data,
     {| _nchannels := _nchannels f;
        _sampwidth := _sampwidth f;
        _soundpos :=
          (_soundpos f
           + len data / Z.of_N (_nchannels f * _sampwidth f))%Z;
        _data_chunk := chunk |}).

(** How many whole frames of [f] a chunk holds. *)
Definition frames_in (f : Wave_read) (chunk : bytes) : Z :=
  (len chunk / _framesize f)%Z.

(** ** [main]: the audio stream over a WAV file *)

(** An asynchronous iterable of [bytes]: [anext] gives the next chunk, or
    [None] when the iteration stops. *)
Class AsyncIterable (S : Type) : Type :=
  anext : S -> option bytes * S.

(** The generator object [audio_stream(wav_file)], lines 73-79: the
    [chunk_size] of its closure, the [Wave_read] it reads, and whether it
    has run to its end. *)
Record AudioStreamGen : Type := mkGen {
  gen_chunk_size : Z;
  gen_f : Wave_read;
  gen_finished : bool
}.

Definition audio_stream (chunk_size : Z) (f : Wave_read) : AudioStreamGen :=
  {| gen_chunk_size := chunk_size; gen_f := f; gen_finished := false |}.

(** Resuming the generator: one turn of the [while True] loop, which either
    yields the chunk or breaks. A finished generator stops at once. *)
Definition audio_stream_anext (g : AudioStreamGen)
    : option bytes * AudioStreamGen :=
  if gen_finished g then (None, g)
  else
    let '(chunk, f) := readframes (gen_f g) (gen_chunk_size g) in
    if bytes_not chunk
    then (None, {| gen_chunk_size := gen_chunk_size g; gen_f := f;
                   gen_finished := true |})
    else (Some chunk, {| gen_chunk_size := gen_chunk_size g; gen_f := f;
                         gen_finished := false |}).

#[global] Instance AudioStreamGen_iterable : AsyncIterable AudioStreamGen :=
  audio_stream_anext.

(** A stream that yields the chunks of a list, for tests. *)
#[global] Instance list_iterable : AsyncIterable (list bytes) :=
  fun s =>
    match s with
    | [] => (None, [])
    | chunk :: rest => (Some chunk, rest)
    end.

(** [async for chunk in stream], at most [fuel] chunks: the chunks
    delivered, the stream afterwards, and whether the iteration stopped. *)
Fixpoint async_for {S : Type} `{AsyncIterable S} (fuel : nat) (s : S)
    : list bytes * S * bool :=
  match fuel with
  | O => ([], s, false)
  | Datatypes.S fuel =>
      match anext s with
      | (None, s) => ([], s, true)
      | (Some chunk, s) =>
          let '(chunks, s, stopped) := async_for fuel s in
          (chunk :: chunks, s, stopped)
      end
  end.

(** Enough turns to read a WAV file through: each chunk yielded takes at
    least one byte of the file. *)
Definition wav_fuel (f : Wave_read) : nat :=
  Datatypes.S (length (raw_rest (_data_chunk f))).

(** ** Substitutable backends and sample data *)

Module Fixtures.

(** Streams are lists of chunks; the backends act on nothing else. *)
Definition TestMachine : Type := Machine (list bytes) unit.

(** A backend that reads its stream through and returns the lengths of
    the chunks, separated by commas. *)
Definition lengths_backend : BackendFn (list bytes) unit :=
  fun _ _ audio_stream st =>
    match streams st !! audio_stream with
    | Some s =>
        let '(chunks, s, _) := async_for (Datatypes.S (length s)) s in
        (Returned (String.concat "," (map (fun c => pretty (length c)) chunks)),
         {| streams := <[audio_stream := s]> (streams st);
            world := world st |})
    | None => (Raised (mkExc (OtherError "KeyError") "no such stream"), st)
    end.

(** A backend that takes one chunk and then fails with the package's
    own error class. *)
Definition failing_backend : BackendFn (list bytes) unit :=
  fun _ _ audio_stream st =>
    (Raised (mkExc TranscribingError "decoding failed"),
     {| streams := alter (fun s => (anext s).2) audio_stream (streams st);
        world := world st |}).

Definition format_type (t : ModelType) : string :=
  match t with
  | KALDI => "kaldi"
  | COQUI_STT => "coqui-stt"
  | OTHER_TYPE name => name
  end.

Definition en_kaldi : Model := mkModel "en_US-rhasspy" KALDI [].
Definition en_coqui : Model := mkModel "en_US-coqui" COQUI_STT [].
Definition en_vosk : Model := mkModel "en_US-vosk" (OTHER_TYPE "vosk") [].

Definition MODELS : list (string * Model) :=
  [("en", en_kaldi); ("en-coqui", en_coqui)].

Definition settings0 : Settings :=
  mkSettings "/models" "/train" "/tools" [] "" "" false.

Definition b (n : nat) : bytes := replicate n Byte.x00.

(** One stream object at reference 7, with chunks of 4, 4 and 2 bytes. *)
Definition machine_442 : TestMachine :=
  {| store := {| streams := {[ 7%N := [b 4; b 4; b 2] ]}; world := tt |};
     calls := [] |}.


(** A backend that counts its runs in the world and says what it heard,
    also when that is nothing. *)
Definition counting_backend : BackendFn (list bytes) nat :=
  fun _ _ audio_stream st =>
    match streams st !! audio_stream with
    | Some s =>
        let '(chunks, s, _) := async_for (Datatypes.S (length s)) s in
        (Returned
           match chunks with
           | [] => "(silence)"
           | _ :: _ =>
               String.concat "," (map (fun c => pretty (length c)) chunks)
           end,
         {| streams := <[audio_stream := s]> (streams st);
            world := Datatypes.S (world st) |})
    | None => (Raised (mkExc (OtherError "KeyError") "no such stream"), st)
    end.

(** A backend that is not installed: it fails at once. *)
Definition refusing_backend : BackendFn (list bytes) nat :=
  fun _ _ _ st => (Raised (mkExc (OtherError "RuntimeError") "not installed"), st).

(** One stream object at reference 7, of no chunks, and a world in which no
    backend has run. *)
Definition machine_silent : Machine (list bytes) nat :=
  {| store := {| streams := {[ 7%N := [] ]}; world := 0 |};
     calls := [] |}.

(** A backend that answers with the directories of the settings it is
    given. *)
Definition settings_backend : BackendFn (list bytes) unit :=
  fun _ settings _ st =>
    (Returned (models_dir settings +:+ ":" +:+ train_dir settings +:+ ":"
                 +:+ tools_dir settings),
     st).

(** A mono 16-bit WAV file just after [wave.open]: the 36 bytes up to the
    data are read, [n] bytes of data follow. *)
Definition wav (n : nat) : Wave_read :=
  {| _nchannels := 1; _sampwidth := 2; _soundpos := 0;
     _data_chunk :=
       mkChunk (Z.of_nat n) 0 true
         (mkChunk (36 + Z.of_nat n) 36 true (mkRawFile (b n))) |}.

End Fixtures.

(** ** [main], lines 34-82 *)

(** The namespace [parser.parse_args()] returns. *)
Module Args.

Record t : Type := mk {
  wav : list string;
  model : string;
  train_dir : string;
  tools_dir : string;
  models_dir : string;
  chunk_size : Z;
  debug : bool
}.

(** The same arguments with [--debug] given or not. *)
Definition with_debug (debug : bool) (args : t) : t :=
  {| wav := wav args; model := model args; train_dir := train_dir args;
     tools_dir := tools_dir args; models_dir := models_dir args;
     chunk_size := chunk_size args; debug := debug |}.

End Args.

(** Logging: the two levels [main] uses and the records that reach the
    handler. *)
Inductive Level : Type :=
| DEBUG
| INFO.

Record LogRecord : Type := mkLogRecord { levelno : Level; msg : string }.

(** [logging.basicConfig(level=logging.DEBUG if args.debug else
    logging.INFO)], line 54: which levels get through. *)
Definition isEnabledFor (debug : bool) (level : Level) : bool :=
  match level with
  | DEBUG => debug
  | INFO => true
  end.

Definition log (debug : bool) (level : Level) (message : string)
    (records : list LogRecord) : list LogRecord :=
  if isEnabledFor debug level
  then records ++ [mkLogRecord level message]
  else records.

Section Main.

Context {K World : Type}.

(** What [main] runs on: the machine, with the generator objects of
    [audio_stream] as its streams, and the log records emitted so far. *)
Record MainState : Type := mkMainState {
  machine : Machine AudioStreamGen World;
  records : list LogRecord
}.

Variable format_type : ModelType -> string.
Variables transcribe_kaldi transcribe_coqui_stt
  : BackendFn AudioStreamGen World.

(** [MODELS] of [.models], as its items in insertion order. *)
Variable MODELS : list (K * Model).

(** [wave.open(wav_path, "rb")]: the [Wave_read] for the file at that path,
    or the exception raised for a missing or malformed file. *)
Variable wave_open : string -> World -> Outcome Wave_read.

(** [str(Path(p))] and the text of [args] in the debug record. *)
Variable Path : string -> string.
Variable format_args : Args.t -> string.

(** Lines 60-68. *)
Definition main_settings (args : Args.t) : Settings :=
  {| models_dir := Path (Args.models_dir args);
     train_dir := Path (Args.train_dir args);
     tools_dir := Path (Args.tools_dir args);
     custom_sentences_dirs := [];
     hass_token := "";
     hass_websocket_uri := "";
     retrain_on_connect := false |}.

(** [audio_stream(wav_file)], line 81: a new generator object, at a
    reference no stream object has. *)
Definition new_stream (mu : Machine AudioStreamGen World) : loc :=
  fresh (dom (streams (store mu))).

Definition with_stream (args : Args.t) (wav_file : Wave_read)
    (mu : Machine AudioStreamGen World) : Machine AudioStreamGen World :=
  {| store :=
       {| streams :=
            <[new_stream mu := audio_stream (Args.chunk_size args) wav_file]>
              (streams (store mu));
          world := world (store mu) |};
     calls := calls mu |}.

(** Lines 71-82, one turn of the loop: the file is opened, a new generator
    object is made over it, [transcribe] is awaited on that object and the
    text is logged. An exception leaves through the [with] statement. *)
Definition main_with_wav (args : Args.t) (model : Model)
    (settings : Settings) (wav_path : string) (ms : MainState)
    : Outcome unit * MainState :=
  match wave_open wav_path (world (store (machine ms))) with
  | Raised e => (Raised e, ms)
  | Returned wav_file =>
      match
        transcribe format_type transcribe_kaldi transcribe_coqui_stt
          model settings (new_stream (machine ms))
          (with_stream args wav_file (machine ms))
      with
      | (Raised e, mu) => (Raised e, {| machine := mu; records := records ms |})
      | (Returned text, mu) =>
          (Returned tt,
           {| machine := mu;
              records :=
                log (Args.debug args) INFO (wav_path +:+ ": " +:+ text)
                  (records ms) |})
      end
  end.

(** Line 70, [for wav_path in args.wav]. *)
Fixpoint main_for (args : Args.t) (model : Model) (settings : Settings)
    (wavs : list string) (ms : MainState) : Outcome unit * MainState :=
  match wavs with
  | [] => (Returned tt, ms)
  | wav_path :: wavs =>
      match main_with_wav args model settings wav_path ms with
      | (Returned _, ms) => main_for args model settings wavs ms
      | (Raised e, ms) => (Raised e, ms)
      end
  end.

(** [main], from the parsed arguments on. *)
Definition main (args : Args.t) (ms : MainState) : Outcome unit * MainState :=
  let ms :=
    {| machine := machine ms;
       records := log (Args.debug args) DEBUG (format_args args) (records ms) |}
  in
  match resolve_model MODELS (Args.model args) with
  | Raised e => (Raised e, ms)
  | Returned model =>
      main_for args model (main_settings args) (Args.wav args) ms
  end.

End Main.

Arguments MainState : clear implicits.

(** ** What is left of a WAV file *)

(** Bytes of the data chunk not read yet, by its header. *)
Definition data_left (f : Wave_read) : Z :=
  (chunksize (_data_chunk f) - size_read (_data_chunk f))%Z.

(** The file holds what the headers announce: the rest of the data chunk
    lies within the RIFF chunk and within the file. *)
Definition intact (f : Wave_read) : Prop :=
  (0 < data_left f)%Z ->
  (data_left f
   <= chunksize (file (_data_chunk f)) - size_read (file (_data_chunk f)))%Z
  /\ (data_left f <= len (raw_rest (_data_chunk f)))%Z.

(** The audio data not read yet. *)
Definition data_rest (f : Wave_read) : bytes :=
  take (Z.to_nat (data_left f)) (raw_rest (_data_chunk f)).

(** Nothing more comes out of a file object: every read returns [b''] and
    leaves it as it is. *)
Definition spent {F : Type} `{FileLike F} (f : F) : Prop :=
  forall size : Z, read size f = ([], f).

(** ** Sample data for [main] *)

Module MainFixtures.

(** A backend that reads the generator through and returns the lengths of
    the chunks. *)
Definition lengths_backend : BackendFn AudioStreamGen unit :=
  fun _ _ audio_stream st =>
    match streams st !! audio_stream with
    | Some g =>
        let '(chunks, g, _) := async_for (wav_fuel (gen_f g)) g in
        (Returned (String.concat "," (map (fun c => pretty (length c)) chunks)),
         {| streams := <[audio_stream := g]> (streams st);
            world := world st |})
    | None => (Raised (mkExc (OtherError "KeyError") "no such stream"), st)
    end.

Definition failing_backend : BackendFn AudioStreamGen unit :=
  fun _ _ _ st => (Raised (mkExc TranscribingError "decoding failed"), st).

Definition wave_open (wav_path : string) (_ : unit) : Outcome Wave_read :=
  if String.eqb wav_path "ten.wav" then Returned (Fixtures.wav 10)
  else if String.eqb wav_path "six.wav" then Returned (Fixtures.wav 6)
  else Raised (mkExc (OtherError "FileNotFoundError") wav_path).

Definition Path (p : string) : string := p.

(** A registry with a model of a type [transcribe] has no branch for. *)
Definition MODELS : list (string * Model) :=
  Fixtures.MODELS ++ [("en-vosk", Fixtures.en_vosk)].

Definition format_args (args : Args.t) : string := "Namespace(...)".

Definition args (wavs : list string) (model_id : string) (debug : bool)
    : Args.t :=
  Args.mk wavs model_id "/train" "/tools" "/models" 2 debug.

Definition start : MainState unit :=
  {| machine := {| store := {| streams := ∅; world := tt |}; calls := [] |};
     records := [] |}.

Definition main (a : Args.t) : Outcome unit * MainState unit :=
  main Fixtures.format_type lengths_backend failing_backend MODELS
    wave_open Path format_args a start.

End MainFixtures.

(** * Properties *)

(** ** Evaluation on the sample data *)

Example transcribe_442 :
  transcribe Fixtures.format_type Fixtures.lengths_backend
    Fixtures.failing_backend Fixtures.en_kaldi Fixtures.settings0 7%N
    Fixtures.machine_442
  = (Returned "4,4,2",
     {| store := {| streams := {[ 7%N := [] ]}; world := tt |};
        calls := [mkCall Kaldi Fixtures.en_kaldi Fixtures.settings0 7%N] |}).
Proof. vm_compute. reflexivity. Qed.

Example transcribe_vosk :
  transcribe Fixtures.format_type Fixtures.lengths_backend
    Fixtures.failing_backend Fixtures.en_vosk Fixtures.settings0 7%N
    Fixtures.machine_442
  = (Raised (mkExc TranscribingError
               "Unexpected model type for en_US-vosk: vosk"),
     Fixtures.machine_442).
Proof. vm_compute. reflexivity. Qed.

Example audio_stream_wav_10_by_2 :
  async_for 20 (audio_stream 2 (Fixtures.wav 10))
  = ([Fixtures.b 4; Fixtures.b 4; Fixtures.b 2],
     {| gen_chunk_size := 2;
        gen_f :=
          {| _nchannels := 1; _sampwidth := 2; _soundpos := 5;
             _data_chunk :=
               mkChunk 10 10 true (mkChunk 46 46 true (mkRawFile [])) |};
        gen_finished := true |},
     true).
Proof. vm_compute. reflexivity. Qed.

Example audio_stream_wav_negative :
  (async_for 20 (audio_stream (-1) (Fixtures.wav 10))).1.1
  = [Fixtures.b 10].
Proof. vm_compute. reflexivity. Qed.

Example main_two_files :
  (MainFixtures.main
     (MainFixtures.args ["ten.wav"; "six.wav"] "en_US-rhasspy" false)).1
  = Returned tt
  /\ records
       (MainFixtures.main
          (MainFixtures.args ["ten.wav"; "six.wav"] "en_US-rhasspy" false)).2
     = [mkLogRecord INFO "ten.wav: 4,4,2"; mkLogRecord INFO "six.wav: 4,2"]
  /\ map call_audio
       (calls
          (machine
             (MainFixtures.main
                (MainFixtures.args ["ten.wav"; "six.wav"] "en_US-rhasspy"
                   false)).2))
     = [0%N; 1%N].
Proof. vm_compute. repeat split; reflexivity. Qed.

Example main_missing_file :
  (MainFixtures.main
     (MainFixtures.args ["ten.wav"; "no.wav"; "six.wav"] "en_US-rhasspy"
        true)).1
  = Raised (mkExc (OtherError "FileNotFoundError") "no.wav")
  /\ records
       (MainFixtures.main
          (MainFixtures.args ["ten.wav"; "no.wav"; "six.wav"] "en_US-rhasspy"
             true)).2
     = [mkLogRecord DEBUG "Namespace(...)";
        mkLogRecord INFO "ten.wav: 4,4,2"].
Proof. vm_compute. split; reflexivity. Qed.

(** ** Strings *)

Lemma append_assoc (s1 s2 s3 : string) :
  (s1 +:+ s2) +:+ s3 = s1 +:+ s2 +:+ s3.
Proof.
  induction s1 as [|a s1 IH]; [reflexivity|].
  change (String a ((s1 +:+ s2) +:+ s3) = String a (s1 +:+ s2 +:+ s3)).
  by rewrite IH.
Qed.

Lemma append_nil_r (s : string) : s +:+ "" = s.
Proof.
  induction s as [|a s IH]; [reflexivity|].
  change (String a (s +:+ "") = String a s). by rewrite IH.
Qed.

Lemma carries_middle (pre sub post : string) :
  carries sub (pre +:+ sub +:+ post).
Proof. by exists pre, post. Qed.

Lemma carries_end (pre sub : string) : carries sub (pre +:+ sub).
Proof. exists pre, "". by rewrite append_nil_r. Qed.

Lemma carries_after (pre sub s : string) :
  carries sub s -> carries sub (pre +:+ s).
Proof.
  intros (p & q & ->). exists (pre +:+ p), q. symmetry. apply append_assoc.
Qed.

(** ** The dispatcher *)

Ltac unfold_transcribe := unfold transcribe, ModelType_eqb.

Section DispatcherFacts.

Context {Stream World : Type}.
Variable format_type : ModelType -> string.
Variables transcribe_kaldi transcribe_coqui_stt : BackendFn Stream World.

Local Abbreviation transcribe :=
  (transcribe format_type transcribe_kaldi transcribe_coqui_stt).
Local Abbreviation backend_fn :=
  (backend_fn transcribe_kaldi transcribe_coqui_stt).

(** What [model.type] selects. *)
Lemma transcribe_kaldi_branch model settings audio_stream mu :
  type model = KALDI ->
  transcribe model settings audio_stream mu
  = bind (await_backend transcribe_kaldi transcribe_coqui_stt Kaldi
            model settings audio_stream) ret mu.
Proof. intros Ht. unfold_transcribe. by rewrite Ht. Qed.

Lemma transcribe_coqui_branch model settings audio_stream mu :
  type model = COQUI_STT ->
  transcribe model settings audio_stream mu
  = bind (await_backend transcribe_kaldi transcribe_coqui_stt CoquiStt
            model settings audio_stream) ret mu.
Proof. intros Ht. unfold_transcribe. by rewrite Ht. Qed.

Lemma transcribe_no_branch model settings audio_stream mu :
  type model <> KALDI -> type model <> COQUI_STT ->
  transcribe model settings audio_stream mu
  = (Raised (mkExc TranscribingError
               ("Unexpected model type for " +:+ id model +:+ ": "
                  +:+ format_type (type model))),
     mu).
Proof.
  intros Hk Hc. unfold_transcribe.
  rewrite !bool_decide_eq_false_2 by done. reflexivity.
Qed.

(** [return await f(...)] gives what [f] gave, value or exception. *)
Lemma return_await b model settings audio_stream mu :
  bind (await_backend transcribe_kaldi transcribe_coqui_stt b
          model settings audio_stream) ret mu
  = ((backend_fn b model settings audio_stream (store mu)).1,
     {| store := (backend_fn b model settings audio_stream (store mu)).2;
        calls := calls mu ++ [mkCall b model settings audio_stream] |}).
Proof.
  unfold bind, await_backend, ret.
  destruct (backend_fn b model settings audio_stream (store mu)) as [[t|e] st];
    reflexivity.
Qed.

(** The whole of [transcribe], by the type of the model. *)
Lemma transcribe_by_type model settings audio_stream mu :
  transcribe model settings audio_stream mu
  = match type model with
    | KALDI =>
        ((transcribe_kaldi model settings audio_stream (store mu)).1,
         {| store := (transcribe_kaldi model settings audio_stream (store mu)).2;
            calls := calls mu ++ [mkCall Kaldi model settings audio_stream] |})
    | COQUI_STT =>
        ((transcribe_coqui_stt model settings audio_stream (store mu)).1,
         {| store :=
              (transcribe_coqui_stt model settings audio_stream (store mu)).2;
            calls := calls mu ++ [mkCall CoquiStt model settings audio_stream] |})
    | OTHER_TYPE _ =>
        (Raised (mkExc TranscribingError
                   ("Unexpected model type for " +:+ id model +:+ ": "
                      +:+ format_type (type model))),
         mu)
    end.
Proof.
  destruct (type model) eqn:Ht.
  - rewrite transcribe_kaldi_branch, return_await by done. reflexivity.
  - rewrite transcribe_coqui_branch, return_await by done. reflexivity.
  - rewrite transcribe_no_branch by (rewrite Ht; done). by rewrite Ht.
Qed.

(** C1. [transcribe] on a KALDI model comes to what [transcribe_kaldi]
    comes to on the same model, settings and stream, and on a COQUI_STT
    model to what [transcribe_coqui_stt] comes to: the same outcome and
    the store as that backend left it, after exactly one invocation, of
    that backend. *)
Theorem transcribe_selects_by_type model settings audio_stream mu :
  (type model = KALDI ->
   transcribe model settings audio_stream mu
   = ((transcribe_kaldi model settings audio_stream (store mu)).1,
      {| store := (transcribe_kaldi model settings audio_stream (store mu)).2;
         calls := calls mu ++ [mkCall Kaldi model settings audio_stream] |}))
  /\ (type model = COQUI_STT ->
      transcribe model settings audio_stream mu
      = ((transcribe_coqui_stt model settings audio_stream (store mu)).1,
         {| store :=
              (transcribe_coqui_stt model settings audio_stream (store mu)).2;
            calls :=
              calls mu ++ [mkCall CoquiStt model settings audio_stream] |})).
Proof.
  split; intros Ht; rewrite transcribe_by_type, Ht; reflexivity.
Qed.

(** C2, as the code has it. For a model whose type is neither KALDI nor
    COQUI_STT, [transcribe] raises [TranscribingError], the package's own
    error class, and leaves the machine as it was. The message is
    "Unexpected model type for <id>: <type>" and so carries the id and the
    type of the model. The exception is no text result, and it is not the
    [AssertionError] that an unknown model id raises in [main]. *)
Theorem unsupported_type_raises model settings audio_stream mu :
  type model <> KALDI -> type model <> COQUI_STT ->
  exists e : Exc,
    transcribe model settings audio_stream mu = (Raised e, mu)
    /\ exc_class e = TranscribingError
    /\ exc_msg e
       = "Unexpected model type for " +:+ id model +:+ ": "
           +:+ format_type (type model)
    /\ carries (id model) (exc_msg e)
    /\ carries (format_type (type model)) (exc_msg e)
    /\ (forall (MODELS : list (string * Model)) (model_id : string),
          resolve_model MODELS model_id <> Raised e)
    /\ (forall (text : string) mu',
          transcribe model settings audio_stream mu <> (Returned text, mu')).
Proof.
  intros Hk Hc. eexists. rewrite transcribe_no_branch by done.
  split; [reflexivity|]. simpl. repeat split.
  - apply carries_middle.
  - apply carries_after, carries_after, carries_end.
  - intros MODELS model_id. unfold resolve_model.
    destruct (find_model MODELS model_id); discriminate.
  - intros text mu'. discriminate.
Qed.



(** C5. On a model whose type is neither KALDI nor COQUI_STT the failing
    call leaves the machine as it found it: the stream object passed is in
    the state it was in, and no backend was invoked. *)
Theorem unsupported_type_consumes_nothing model settings audio_stream mu :
  type model <> KALDI -> type model <> COQUI_STT ->
  (transcribe model settings audio_stream mu).2 = mu
  /\ streams (store (transcribe model settings audio_stream mu).2)
       !! audio_stream
     = streams (store mu) !! audio_stream
  /\ calls (transcribe model settings audio_stream mu).2 = calls mu.
Proof.
  intros Hk Hc. rewrite transcribe_no_branch by done. auto.
Qed.

(** C6. On a model of a supported type and a stream that yields no chunk,
    [transcribe] still invokes the backend of that type, [transcribe_kaldi]
    on a KALDI model and [transcribe_coqui_stt] on a COQUI_STT model, on
    the store as it is, the empty stream included, and comes to what that
    backend comes to on it. *)
Theorem empty_stream_is_forwarded `{AsyncIterable Stream}
    model settings audio_stream mu (s : Stream) :
  streams (store mu) !! audio_stream = Some s ->
  (anext s).1 = None ->
  (type model = KALDI ->
   transcribe model settings audio_stream mu
   = ((transcribe_kaldi model settings audio_stream (store mu)).1,
      {| store := (transcribe_kaldi model settings audio_stream (store mu)).2;
         calls := calls mu ++ [mkCall Kaldi model settings audio_stream] |}))
  /\ (type model = COQUI_STT ->
      transcribe model settings audio_stream mu
      = ((transcribe_coqui_stt model settings audio_stream (store mu)).1,
         {| store :=
              (transcribe_coqui_stt model settings audio_stream (store mu)).2;
            calls :=
              calls mu ++ [mkCall CoquiStt model settings audio_stream] |})).
Proof.
  intros _ _. split; intros Ht; rewrite transcribe_by_type, Ht; reflexivity.
Qed.


End DispatcherFacts.

(** C8. The backend is handed the very settings [transcribe] was given:
    on a KALDI model the call comes to what [transcribe_kaldi] comes to on
    those settings, on a COQUI_STT model to what [transcribe_coqui_stt]
    comes to on them, whatever the two backends are; so a backend that
    answers with what it reads off its settings answers with what is read
    off the caller's. Every invocation recorded during the call has those
    settings, and where no backend is selected the call comes to the same
    whatever the settings are. *)
Theorem settings_passed_unchanged {Stream World : Type}
    (format_type : ModelType -> string)
    (transcribe_kaldi transcribe_coqui_stt : BackendFn Stream World)
    model settings audio_stream mu :
  (type model = KALDI ->
   transcribe format_type transcribe_kaldi transcribe_coqui_stt
     model settings audio_stream mu
   = ((transcribe_kaldi model settings audio_stream (store mu)).1,
      {| store := (transcribe_kaldi model settings audio_stream (store mu)).2;
         calls := calls mu ++ [mkCall Kaldi model settings audio_stream] |}))
  /\ (type model = COQUI_STT ->
      transcribe format_type transcribe_kaldi transcribe_coqui_stt
        model settings audio_stream mu
      = ((transcribe_coqui_stt model settings audio_stream (store mu)).1,
         {| store :=
              (transcribe_coqui_stt model settings audio_stream (store mu)).2;
            calls :=
              calls mu ++ [mkCall CoquiStt model settings audio_stream] |}))
  /\ (forall observe : Settings -> string,
        type model = KALDI \/ type model = COQUI_STT ->
        (transcribe format_type
           (fun _ given _ st => (Returned (observe given), st))
           (fun _ given _ st => (Returned (observe given), st))
           model settings audio_stream mu).1
        = Returned (observe settings))
  /\ (forall c : Call,
        c ∈ calls (transcribe format_type transcribe_kaldi
                     transcribe_coqui_stt model settings audio_stream mu).2 ->
        c ∈ calls mu \/ call_settings c = settings)
  /\ (type model <> KALDI -> type model <> COQUI_STT ->
      forall settings' : Settings,
        transcribe format_type transcribe_kaldi transcribe_coqui_stt
          model settings' audio_stream mu
        = transcribe format_type transcribe_kaldi transcribe_coqui_stt
            model settings audio_stream mu).
Proof.
  split; [|split; [|split; [|split]]].
  - intros Ht. rewrite transcribe_by_type, Ht. reflexivity.
  - intros Ht. rewrite transcribe_by_type, Ht. reflexivity.
  - intros observe [Ht|Ht]; rewrite transcribe_by_type, Ht; reflexivity.
  - intros c. rewrite transcribe_by_type.
    destruct (type model); simpl; [| |by left];
      rewrite elem_of_app, list_elem_of_singleton; intros [Hc| ->]; auto.
  - intros Hk Hc settings'. by rewrite !transcribe_no_branch.
Qed.

(** ** Resolving the model *)

Lemma find_model_none {K : Type} (MODELS : list (K * Model)) model_id :
  (forall k m, (k, m) ∈ MODELS -> id m <> model_id) ->
  find_model MODELS model_id = None.
Proof.
  unfold find_model. induction MODELS as [|[k m] MODELS IH]; intros Hno.
  - reflexivity.
  - simpl. destruct (String.eqb_spec (id m) model_id) as [Heq|_].
    + exfalso. apply (Hno k m); [left | exact Heq].
    + apply IH. intros k' m' Hin. apply (Hno k' m'). by right.
Qed.

(** C7, as the code has it. Resolving a model id that no registered model
    has raises, by the [assert] of line 58, [AssertionError] with the message
    "Unknown model id: <id>"; that is not the class of the error
    [transcribe] raises on a model of an unsupported type. *)
Theorem unknown_model_id_fails {K : Type} (MODELS : list (K * Model))
    (model_id : string) :
  (forall k m, (k, m) ∈ MODELS -> id m <> model_id) ->
  resolve_model MODELS model_id
  = Raised (mkExc AssertionError ("Unknown model id: " +:+ model_id))
  /\ forall (Stream World : Type) format_type
       (transcribe_kaldi transcribe_coqui_stt : BackendFn Stream World)
       model settings audio_stream mu e mu',
       type model <> KALDI -> type model <> COQUI_STT ->
       transcribe format_type transcribe_kaldi transcribe_coqui_stt
         model settings audio_stream mu = (Raised e, mu') ->
       exc_class e <> AssertionError.
Proof.
  intros Hno. split.
  - unfold resolve_model. by rewrite find_model_none.
  - intros Stream World format_type tk tc model settings audio_stream mu e mu'
      Hk Hc. rewrite transcribe_no_branch by done.
    intros [= <- _]. discriminate.
Qed.

(** Against C7 as worded, a [ModelNotFoundError] of its own: the package
    has no such class, and for an id that no sample model has the lookup
    raises the [AssertionError] of a failed [assert]. *)
Lemma unknown_model_id_raises_no_model_not_found :
  ~ (forall (MODELS : list (string * Model)) (model_id : string),
       (forall k m, (k, m) ∈ MODELS -> id m <> model_id) ->
       exists e : Exc,
         resolve_model MODELS model_id = Raised e
         /\ exc_class e = OtherError "ModelNotFoundError"
         /\ exc_class e <> TranscribingError).
Proof.
  intros Hclaim.
  destruct (Hclaim Fixtures.MODELS "de_DE-zamia") as (e & Hres & Hclass & _).
  - intros k m Hin. apply list_elem_of_In in Hin.
    destruct Hin as [[= _ <-]|[[= _ <-]|[]]]; discriminate.
  - injection Hres as <-. discriminate Hclass.
Qed.

(** ** Reading the WAV file *)

Lemma RawFile_read_at_most (size : Z) (f : RawFile) :
  (0 <= size)%Z -> (len (read size f).1 <= size)%Z.
Proof.
  intros Hs. unfold read, RawFile_read, len.
  destruct (Z.ltb_spec size 0) as [?|_]; [lia|]. simpl.
  rewrite length_take. lia.
Qed.

Lemma RawFile_read_consumes (size : Z) (f : RawFile) :
  length (rest (read size f).2) + length (read size f).1 <= length (rest f).
Proof.
  unfold read, RawFile_read.
  destruct (Z.ltb_spec size 0) as [_|_]; simpl.
  - lia.
  - rewrite length_take, length_drop. lia.
Qed.

Section ChunkFacts.

Context {F : Type} `{FileLike F}.
Variable unread : F -> nat.

Hypothesis inner_at_most :
  forall (size : Z) (f : F), (0 <= size)%Z -> (len (read size f).1 <= size)%Z.
Hypothesis inner_consumes :
  forall (size : Z) (f : F),
    unread (read size f).2 + length (read size f).1 <= unread f.

Lemma Chunk_read_at_most (size : Z) (c : Chunk F) :
  (0 <= size)%Z -> (len (read size c).1 <= size)%Z.
Proof.
  intros Hs. unfold read at 1, Chunk_read.
  destruct (Z.leb_spec (chunksize c) (size_read c)) as [_|Hleft]; [simpl; unfold len; simpl; lia|].
  destruct (Z.ltb_spec size 0) as [?|_]; [lia|].
  set (size' := if (chunksize c - size_read c <? size)%Z
                then (chunksize c - size_read c)%Z else size).
  assert (0 <= size' <= size)%Z as Hsize'.
  { subst size'. destruct (Z.ltb_spec (chunksize c - size_read c) size); lia. }
  pose proof (inner_at_most size' (file c) (proj1 Hsize')) as Hle.
  destruct (read size' (file c)) as [data file'] eqn:Hr. simpl in Hle.
  destruct ((size_read c + len data =? chunksize c)%Z && align c
            && Z.odd (chunksize c)).
  - destruct (read 1%Z file') as [dummy file'']. simpl. lia.
  - simpl. lia.
Qed.

Lemma Chunk_read_consumes (size : Z) (c : Chunk F) :
  unread (file (read size c).2) + length (read size c).1 <= unread (file c).
Proof.
  unfold read at 1 2, Chunk_read.
  destruct (Z.leb_spec (chunksize c) (size_read c)) as [_|Hleft]; [simpl; lia|].
  set (size' := if (chunksize c - size_read c <? _)%Z then _ else _).
  pose proof (inner_consumes size' (file c)) as Hle.
  destruct (read size' (file c)) as [data file'] eqn:Hr. simpl in Hle.
  destruct ((size_read c + len data =? chunksize c)%Z && align c
            && Z.odd (chunksize c)).
  - pose proof (inner_consumes 1%Z file') as Hle'.
    destruct (read 1%Z file') as [dummy file'']. simpl in *. lia.
  - simpl. lia.
Qed.

End ChunkFacts.

Lemma DataChunk_read_at_most (size : Z) (c : DataChunk) :
  (0 <= size)%Z -> (len (read size c).1 <= size)%Z.
Proof.
  apply Chunk_read_at_most. intros size' f.
  apply Chunk_read_at_most. exact RawFile_read_at_most.
Qed.

Lemma DataChunk_read_consumes (size : Z) (c : DataChunk) :
  length (raw_rest (read size c).2) + length (read size c).1
  <= length (raw_rest c).
Proof.
  unfold raw_rest.
  apply (Chunk_read_consumes (fun f : Chunk RawFile => length (rest (file f)))).
  intros size' f.
  apply (Chunk_read_consumes (fun f : RawFile => length (rest f))).
  exact RawFile_read_consumes.
Qed.

Lemma readframes_at_most (f : Wave_read) (nframes : Z) :
  (0 <= nframes)%Z ->
  (len (readframes f nframes).1 <= nframes * _framesize f)%Z.
Proof.
  intros Hn. unfold readframes.
  destruct (Z.eqb_spec nframes 0) as [->|_]; [simpl; unfold len; simpl; lia|].
  assert (0 <= nframes * _framesize f)%Z as Hsize by (unfold _framesize; lia).
  pose proof (DataChunk_read_at_most _ (_data_chunk f) Hsize) as Hle.
  destruct (read (nframes * _framesize f)%Z (_data_chunk f)) as [data chunk].
  exact Hle.
Qed.

Lemma readframes_consumes (f : Wave_read) (nframes : Z) :
  length (raw_rest (_data_chunk (readframes f nframes).2))
  + length (readframes f nframes).1
  <= length (raw_rest (_data_chunk f)).
Proof.
  unfold readframes.
  destruct (Z.eqb_spec nframes 0) as [_|_]; [simpl; lia|].
  pose proof (DataChunk_read_consumes (nframes * _framesize f)%Z
                (_data_chunk f)) as Hle.
  destruct (read (nframes * _framesize f)%Z (_data_chunk f)) as [data chunk].
  exact Hle.
Qed.

Lemma readframes_framesize (f : Wave_read) (nframes : Z) :
  _framesize (readframes f nframes).2 = _framesize f.
Proof.
  unfold readframes. destruct (nframes =? 0)%Z; [reflexivity|].
  destruct (read (nframes * _framesize f)%Z (_data_chunk f)). reflexivity.
Qed.

(** ** The audio stream of [main] *)

Lemma bytes_not_true (chunk : bytes) : bytes_not chunk = true <-> chunk = [].
Proof. destruct chunk; simpl; split; congruence. Qed.

(** One resumption of a generator that has not finished. *)
Lemma audio_stream_anext_running (g : AudioStreamGen) :
  gen_finished g = false ->
  audio_stream_anext g
  = let chunk := (readframes (gen_f g) (gen_chunk_size g)).1 in
    let f := (readframes (gen_f g) (gen_chunk_size g)).2 in
    (if bytes_not chunk then None else Some chunk,
     mkGen (gen_chunk_size g) f (bytes_not chunk)).
Proof.
  intros Hrun. unfold audio_stream_anext. rewrite Hrun.
  destruct (readframes (gen_f g) (gen_chunk_size g)) as [chunk f]. simpl.
  destruct (bytes_not chunk); reflexivity.
Qed.

(** The generator stops exactly on an empty [readframes]. *)
Lemma audio_stream_stops_iff (g : AudioStreamGen) :
  gen_finished g = false ->
  (anext g).1 = None <-> (readframes (gen_f g) (gen_chunk_size g)).1 = [].
Proof.
  intros Hrun. unfold anext, AudioStreamGen_iterable.
  rewrite audio_stream_anext_running by done. simpl.
  rewrite <- bytes_not_true.
  destruct (bytes_not _); split; congruence.
Qed.

(** What a chunk the generator yields is. *)
Lemma audio_stream_yields (g g' : AudioStreamGen) (chunk : bytes) :
  anext g = (Some chunk, g') ->
  chunk <> []
  /\ chunk = (readframes (gen_f g) (gen_chunk_size g)).1
  /\ gen_chunk_size g' = gen_chunk_size g
  /\ _framesize (gen_f g') = _framesize (gen_f g)
  /\ length (raw_rest (_data_chunk (gen_f g')))
     < length (raw_rest (_data_chunk (gen_f g))).
Proof.
  unfold anext, AudioStreamGen_iterable. intros Hnext.
  destruct (gen_finished g) eqn:Hrun.
  { unfold audio_stream_anext in Hnext. rewrite Hrun in Hnext. discriminate. }
  rewrite audio_stream_anext_running in Hnext by done. simpl in Hnext.
  pose proof (readframes_consumes (gen_f g) (gen_chunk_size g)) as Hle.
  pose proof (readframes_framesize (gen_f g) (gen_chunk_size g)) as Hfs.
  destruct (readframes (gen_f g) (gen_chunk_size g)) as [c f]. simpl in *.
  destruct c as [|x c]; simpl in Hnext; [discriminate|].
  injection Hnext as <- <-. simpl in *.
  repeat split; [discriminate | done | lia].
Qed.

(** With a turn more than the file has bytes left, the iteration stops,
    the generator ends finished, and no chunk delivered is empty. *)
Lemma audio_stream_runs_out (fuel : nat) (g : AudioStreamGen) :
  length (raw_rest (_data_chunk (gen_f g))) < fuel ->
  (async_for fuel g).2 = true
  /\ gen_finished (async_for fuel g).1.2 = true
  /\ Forall (fun chunk => chunk <> []) (async_for fuel g).1.1.
Proof.
  revert g. induction fuel as [|fuel IH]; intros g Hfuel; [lia|].
  simpl. destruct (anext g) as [[chunk|] g'] eqn:Hnext.
  - destruct (audio_stream_yields _ _ _ Hnext) as (Hne & _ & _ & _ & Hlt).
    destruct (IH g') as (Hstop & Hfin & Hall); [lia|].
    destruct (async_for fuel g') as [[chunks g''] stopped]. simpl in *.
    repeat split; [done | done | by constructor].
  - simpl. repeat split; [|constructor].
    unfold anext, AudioStreamGen_iterable, audio_stream_anext in Hnext.
    destruct (gen_finished g) eqn:Hrun; [by injection Hnext as <-|].
    destruct (readframes (gen_f g) (gen_chunk_size g)) as [c f].
    destruct (bytes_not c); [by injection Hnext as <-|discriminate].
Qed.

(** With a chunk size that is not negative, no chunk delivered has more
    than that many frames. *)
Lemma async_for_chunks_at_most (fuel : nat) (g : AudioStreamGen) :
  (0 <= gen_chunk_size g)%Z ->
  Forall (fun chunk =>
            (len chunk <= gen_chunk_size g * _framesize (gen_f g))%Z)
    (async_for fuel g).1.1.
Proof.
  revert g. induction fuel as [|fuel IH]; intros g Hsize; [constructor|].
  simpl. destruct (anext g) as [[chunk|] g'] eqn:Hnext; [|constructor].
  destruct (audio_stream_yields _ _ _ Hnext) as (_ & -> & Hcs & Hfs & _).
  specialize (IH g'). rewrite Hcs, Hfs in IH. specialize (IH Hsize).
  destruct (async_for fuel g') as [[chunks g''] stopped]. simpl in *.
  constructor; [|done]. by apply readframes_at_most.
Qed.

Lemma frames_in_at_most (f : Wave_read) (chunk : bytes) (n : Z) :
  (0 <= n)%Z -> (len chunk <= n * _framesize f)%Z -> (frames_in f chunk <= n)%Z.
Proof.
  intros Hn Hle. unfold frames_in.
  destruct (Z.eq_dec (_framesize f) 0%Z) as [->|Hnz].
  - by rewrite Z.div_0_r.
  - assert (0 < _framesize f)%Z by (unfold _framesize in *; lia).
    apply Z.div_le_upper_bound; lia.
Qed.

(** C9, as the code has it. Reading [audio_stream(f)] through takes no more
    turns than [f] has bytes left, plus one; it ends with the generator
    finished; a running generator stops exactly when [readframes] returns
    an empty chunk; no chunk delivered is empty; and, when the chunk size is
    not negative, no chunk delivered has more than that many frames. *)
Theorem audio_stream_yields_bounded_chunks (chunk_size : Z) (f : Wave_read) :
  (async_for (wav_fuel f) (audio_stream chunk_size f)).2 = true
  /\ gen_finished (async_for (wav_fuel f) (audio_stream chunk_size f)).1.2
     = true
  /\ (forall g : AudioStreamGen,
        gen_finished g = false ->
        (anext g).1 = None
        <-> (readframes (gen_f g) (gen_chunk_size g)).1 = [])
  /\ Forall (fun chunk => chunk <> [])
       (async_for (wav_fuel f) (audio_stream chunk_size f)).1.1
  /\ ((0 <= chunk_size)%Z ->
      Forall (fun chunk =>
                (len chunk <= chunk_size * _framesize f)%Z
                /\ (frames_in f chunk <= chunk_size)%Z)
        (async_for (wav_fuel f) (audio_stream chunk_size f)).1.1).
Proof.
  destruct (audio_stream_runs_out (wav_fuel f) (audio_stream chunk_size f))
    as (Hstop & Hfin & Hne); [unfold wav_fuel; simpl; lia|].
  repeat split; try done.
  - by apply audio_stream_stops_iff.
  - by apply audio_stream_stops_iff.
  - intros Hsize.
    pose proof (async_for_chunks_at_most (wav_fuel f)
                  (audio_stream chunk_size f) Hsize) as Hall.
    simpl in Hall. eapply Forall_impl; [exact Hall|].
    intros chunk Hle. simpl in Hle. split; [done|].
    by apply frames_in_at_most.
Qed.

(** Against C9 as worded, "at most chunk-size frames" for every chunk
    size: with [--chunk-size -1], [readframes(-1)] returns all ten bytes,
    five frames, of the sample file in one chunk. *)
Lemma audio_stream_negative_chunk_size :
  ~ (forall (chunk_size : Z) (f : Wave_read),
       Forall (fun chunk => (frames_in f chunk <= chunk_size)%Z)
         (async_for (wav_fuel f) (audio_stream chunk_size f)).1.1).
Proof.
  intros Hall. specialize (Hall (-1)%Z (Fixtures.wav 10)).
  apply Forall_cons_1 in Hall as [Hhead _].
  vm_compute in Hhead. by apply Hhead.
Qed.

Lemma audio_stream_yields_bounded_chunks_witness :
  (0 <= 2)%Z
  /\ Forall (fun chunk =>
               (len chunk <= 2 * _framesize (Fixtures.wav 10))%Z
               /\ (frames_in (Fixtures.wav 10) chunk <= 2)%Z)
       (async_for (wav_fuel (Fixtures.wav 10))
          (audio_stream 2 (Fixtures.wav 10))).1.1.
Proof.
  split; [lia|].
  apply (audio_stream_yields_bounded_chunks 2 (Fixtures.wav 10)). lia.
Defined.

(** ** The theorems on the sample data *)

Lemma transcribe_selects_by_type_witness :
  transcribe Fixtures.format_type Fixtures.lengths_backend
    Fixtures.failing_backend Fixtures.en_kaldi Fixtures.settings0 7%N
    Fixtures.machine_442
  = (Returned "4,4,2",
     {| store := {| streams := {[ 7%N := [] ]}; world := tt |};
        calls := [mkCall Kaldi Fixtures.en_kaldi Fixtures.settings0 7%N] |})
  /\ transcribe Fixtures.format_type Fixtures.failing_backend
       Fixtures.lengths_backend Fixtures.en_coqui Fixtures.settings0 7%N
       Fixtures.machine_442
     = (Returned "4,4,2",
        {| store := {| streams := {[ 7%N := [] ]}; world := tt |};
           calls := [mkCall CoquiStt Fixtures.en_coqui Fixtures.settings0 7%N] |}).
Proof.
  split.
  - refine (eq_trans
              (proj1 (transcribe_selects_by_type Fixtures.format_type
                        Fixtures.lengths_backend Fixtures.failing_backend
                        Fixtures.en_kaldi Fixtures.settings0 7%N
                        Fixtures.machine_442) _) _);
      [reflexivity | vm_compute; reflexivity].
  - refine (eq_trans
              (proj2 (transcribe_selects_by_type Fixtures.format_type
                        Fixtures.failing_backend Fixtures.lengths_backend
                        Fixtures.en_coqui Fixtures.settings0 7%N
                        Fixtures.machine_442) _) _);
      [reflexivity | vm_compute; reflexivity].
Defined.

Lemma unsupported_type_raises_witness :
  exists e : Exc,
    transcribe Fixtures.format_type Fixtures.lengths_backend
      Fixtures.failing_backend Fixtures.en_vosk Fixtures.settings0 7%N
      Fixtures.machine_442
    = (Raised e, Fixtures.machine_442)
    /\ exc_class e = TranscribingError
    /\ exc_msg e = "Unexpected model type for en_US-vosk: vosk".
Proof.
  destruct (unsupported_type_raises Fixtures.format_type
              Fixtures.lengths_backend Fixtures.failing_backend
              Fixtures.en_vosk Fixtures.settings0 7%N Fixtures.machine_442)
    as (e & Hrun & Hclass & Hmsg & _); [discriminate | discriminate |].
  exists e. repeat split; [exact Hrun | exact Hclass | exact Hmsg].
Defined.

(** Against C2 as worded, an error told apart by its type from any error
    a backend raises: with a backend that raises [TranscribingError]
    itself, the class that [transcribe] raises on an unsupported type is
    the class of a backend's error. *)
Lemma unsupported_type_error_class_shared :
  ~ (forall model settings audio_stream mu,
       type model <> KALDI -> type model <> COQUI_STT ->
       exists e : Exc,
         (transcribe Fixtures.format_type Fixtures.failing_backend
            Fixtures.lengths_backend model settings audio_stream mu).1
         = Raised e
         /\ exc_class e <> AssertionError
         /\ carries (id model) (exc_msg e)
         /\ carries (Fixtures.format_type (type model)) (exc_msg e)
         /\ (forall model' settings' audio_stream' st e',
               (Fixtures.failing_backend model' settings' audio_stream' st).1
               = Raised e' ->
               exc_class e' <> exc_class e)).
Proof.
  intros Hclaim.
  destruct (Hclaim Fixtures.en_vosk Fixtures.settings0 7%N
              Fixtures.machine_442)
    as (e & Hrun & _ & _ & _ & Hdistinct); [discriminate | discriminate |].
  injection Hrun as <-.
  apply (Hdistinct Fixtures.en_kaldi Fixtures.settings0 7%N
           (store Fixtures.machine_442)
           (mkExc TranscribingError "decoding failed"));
    reflexivity.
Qed.


Lemma unsupported_type_consumes_nothing_witness :
  (transcribe Fixtures.format_type Fixtures.failing_backend
     Fixtures.lengths_backend Fixtures.en_vosk Fixtures.settings0 7%N
     Fixtures.machine_442).2
  = Fixtures.machine_442.
Proof.
  apply (unsupported_type_consumes_nothing Fixtures.format_type
           Fixtures.failing_backend Fixtures.lengths_backend
           Fixtures.en_vosk Fixtures.settings0 7%N Fixtures.machine_442);
    discriminate.
Defined.

Lemma empty_stream_is_forwarded_witness :
  transcribe Fixtures.format_type Fixtures.counting_backend
    Fixtures.refusing_backend Fixtures.en_kaldi Fixtures.settings0 7%N
    Fixtures.machine_silent
  = (Returned "(silence)",
     {| store := {| streams := {[ 7%N := [] ]}; world := 1 |};
        calls := [mkCall Kaldi Fixtures.en_kaldi Fixtures.settings0 7%N] |})
  /\ transcribe Fixtures.format_type Fixtures.refusing_backend
       Fixtures.counting_backend Fixtures.en_coqui Fixtures.settings0 7%N
       Fixtures.machine_silent
     = (Returned "(silence)",
        {| store := {| streams := {[ 7%N := [] ]}; world := 1 |};
           calls :=
             [mkCall CoquiStt Fixtures.en_coqui Fixtures.settings0 7%N] |}).
Proof.
  split.
  - refine (eq_trans
              (proj1 (empty_stream_is_forwarded Fixtures.format_type
                        Fixtures.counting_backend Fixtures.refusing_backend
                        Fixtures.en_kaldi Fixtures.settings0 7%N
                        Fixtures.machine_silent [] _ _) _) _).
    + vm_compute. reflexivity.
    + reflexivity.
    + reflexivity.
    + vm_compute. reflexivity.
  - refine (eq_trans
              (proj2 (empty_stream_is_forwarded Fixtures.format_type
                        Fixtures.refusing_backend Fixtures.counting_backend
                        Fixtures.en_coqui Fixtures.settings0 7%N
                        Fixtures.machine_silent [] _ _) _) _).
    + vm_compute. reflexivity.
    + reflexivity.
    + reflexivity.
    + vm_compute. reflexivity.
Defined.

Lemma unknown_model_id_fails_witness :
  resolve_model Fixtures.MODELS "de_DE-zamia"
  = Raised (mkExc AssertionError "Unknown model id: de_DE-zamia").
Proof.
  apply (unknown_model_id_fails Fixtures.MODELS "de_DE-zamia").
  intros k m Hin. vm_compute in Hin.
  apply list_elem_of_In in Hin.
  destruct Hin as [[= _ <-]|[[= _ <-]|[]]]; discriminate.
Defined.

Lemma settings_passed_unchanged_witness :
  transcribe Fixtures.format_type Fixtures.settings_backend
    Fixtures.failing_backend Fixtures.en_kaldi Fixtures.settings0 7%N
    Fixtures.machine_442
  = (Returned "/models:/train:/tools",
     {| store := store Fixtures.machine_442;
        calls := [mkCall Kaldi Fixtures.en_kaldi Fixtures.settings0 7%N] |})
  /\ transcribe Fixtures.format_type Fixtures.failing_backend
       Fixtures.settings_backend Fixtures.en_coqui Fixtures.settings0 7%N
       Fixtures.machine_442
     = (Returned "/models:/train:/tools",
        {| store := store Fixtures.machine_442;
           calls :=
             [mkCall CoquiStt Fixtures.en_coqui Fixtures.settings0 7%N] |})
  /\ (transcribe Fixtures.format_type
        (fun _ given _ st => (Returned (tools_dir given), st))
        (fun _ given _ st => (Returned (tools_dir given), st))
        Fixtures.en_kaldi Fixtures.settings0 7%N Fixtures.machine_442).1
     = Returned "/tools"
  /\ forall settings' : Settings,
       transcribe Fixtures.format_type Fixtures.settings_backend
         Fixtures.failing_backend Fixtures.en_vosk settings' 7%N
         Fixtures.machine_442
       = transcribe Fixtures.format_type Fixtures.settings_backend
           Fixtures.failing_backend Fixtures.en_vosk Fixtures.settings0 7%N
           Fixtures.machine_442.
Proof.
  split; [|split; [|split]].
  - refine (eq_trans
              (proj1 (settings_passed_unchanged Fixtures.format_type
                        Fixtures.settings_backend Fixtures.failing_backend
                        Fixtures.en_kaldi Fixtures.settings0 7%N
                        Fixtures.machine_442) _) _);
      [reflexivity | vm_compute; reflexivity].
  - refine (eq_trans
              (proj1 (proj2 (settings_passed_unchanged Fixtures.format_type
                               Fixtures.failing_backend
                               Fixtures.settings_backend Fixtures.en_coqui
                               Fixtures.settings0 7%N Fixtures.machine_442))
                 _) _);
      [reflexivity | vm_compute; reflexivity].
  - apply (proj1 (proj2 (proj2 (settings_passed_unchanged
                                  Fixtures.format_type
                                  Fixtures.settings_backend
                                  Fixtures.failing_backend Fixtures.en_kaldi
                                  Fixtures.settings0 7%N
                                  Fixtures.machine_442))) tools_dir).
    left. reflexivity.
  - apply (proj2 (proj2 (proj2 (proj2 (settings_passed_unchanged
                                         Fixtures.format_type
                                         Fixtures.settings_backend
                                         Fixtures.failing_backend
                                         Fixtures.en_vosk Fixtures.settings0
                                         7%N Fixtures.machine_442)))));
      discriminate.
Defined.


(** * Further properties *)

Local Open Scope list_scope.

(** ** Resolving the model *)

Lemma find_model_some {K : Type} (MODELS : list (K * Model))
    (model_id : string) (m : Model) :
  find_model MODELS model_id = Some m ->
  id m = model_id /\ exists k, (k, m) ∈ MODELS.
Proof.
  unfold find_model.
  induction MODELS as [|[k m'] MODELS IH]; simpl; [discriminate|].
  destruct (String.eqb_spec (id m') model_id) as [Heq|Hne].
  - intros [= <-]. split; [done|]. exists k. left.
  - intros Hfind. destruct (IH Hfind) as (Hid & k' & Hin).
    split; [done|]. exists k'. by right.
Qed.

Lemma find_model_first {K : Type} (before after : list (K * Model))
    (k : K) (m : Model) (model_id : string) :
  id m = model_id ->
  (forall k' m', (k', m') ∈ before -> id m' <> model_id) ->
  find_model (before ++ (k, m) :: after) model_id = Some m.
Proof.
  intros Hid Hbefore. unfold find_model.
  induction before as [|[k' m'] before IH]; simpl.
  - destruct (String.eqb_spec (id m) model_id); [reflexivity | done].
  - destruct (String.eqb_spec (id m') model_id) as [Heq|_].
    + exfalso. apply (Hbefore k' m'); [left | done].
    + apply IH. intros k'' m'' Hin. apply (Hbefore k'' m''). by right.
Qed.

(** X1. What [resolve_model] returns is a registered model with the id
    asked for; otherwise it raises [AssertionError]. *)
Theorem resolve_model_sound {K : Type} (MODELS : list (K * Model))
    (model_id : string) :
  (exists k m, resolve_model MODELS model_id = Returned m
               /\ id m = model_id /\ (k, m) ∈ MODELS)
  \/ resolve_model MODELS model_id
     = Raised (mkExc AssertionError ("Unknown model id: " +:+ model_id)).
Proof.
  unfold resolve_model.
  destruct (find_model MODELS model_id) as [m|] eqn:Hfind; [left|by right].
  destruct (find_model_some _ _ _ Hfind) as (Hid & k & Hin).
  by exists k, m.
Qed.

(** X2. When several registered models have the id, the first one in the
    order of [MODELS] is returned. *)
Theorem resolve_model_first_match {K : Type} (before after : list (K * Model))
    (k : K) (m : Model) (model_id : string) :
  id m = model_id ->
  (forall k' m', (k', m') ∈ before -> id m' <> model_id) ->
  resolve_model (before ++ (k, m) :: after) model_id = Returned m.
Proof.
  intros Hid Hbefore. unfold resolve_model.
  by rewrite find_model_first.
Qed.

Lemma resolve_model_first_match_witness :
  resolve_model Fixtures.MODELS "en_US-coqui" = Returned Fixtures.en_coqui.
Proof.
  apply (resolve_model_first_match [("en", Fixtures.en_kaldi)] []
           "en-coqui" Fixtures.en_coqui "en_US-coqui").
  - reflexivity.
  - intros k' m' Hin. apply list_elem_of_In in Hin.
    destruct Hin as [[= _ <-]|[]]. discriminate.
Defined.

(** X3. When no two registered models share an id, every registered model
    is resolved from its own id. *)
Theorem resolve_model_registered {K : Type} (MODELS : list (K * Model))
    (k : K) (m : Model) :
  NoDup (map (fun km => id km.2) MODELS) ->
  (k, m) ∈ MODELS ->
  resolve_model MODELS (id m) = Returned m.
Proof.
  intros Hnodup Hin.
  apply list_elem_of_split in Hin as (before & after & ->).
  unfold resolve_model. rewrite find_model_first; [reflexivity..|].
  intros k' m' Hin' Heq.
  rewrite map_app, NoDup_app in Hnodup. destruct Hnodup as (_ & Hdisj & _).
  apply (Hdisj (id m')).
  - apply list_elem_of_fmap. by exists (k', m').
  - rewrite Heq. simpl. left.
Qed.

Lemma resolve_model_registered_witness :
  resolve_model Fixtures.MODELS (id Fixtures.en_kaldi)
  = Returned Fixtures.en_kaldi.
Proof.
  apply (resolve_model_registered Fixtures.MODELS "en" Fixtures.en_kaldi).
  - apply (bool_decide_unpack _). vm_compute. exact I.
  - left.
Defined.

(** ** The dispatcher and the backend it does not select *)

(** X4. On a KALDI model [transcribe] comes to the same whatever the
    COQUI_STT backend is, and on a COQUI_STT model whatever the KALDI
    backend is. *)
Theorem transcribe_ignores_other_backend {Stream World : Type} format_type
    (kaldi kaldi' coqui coqui' : BackendFn Stream World)
    model settings audio_stream mu :
  (type model = KALDI ->
   transcribe format_type kaldi coqui model settings audio_stream mu
   = transcribe format_type kaldi coqui' model settings audio_stream mu)
  /\ (type model = COQUI_STT ->
      transcribe format_type kaldi coqui model settings audio_stream mu
      = transcribe format_type kaldi' coqui model settings audio_stream mu).
Proof.
  split; intros Ht; rewrite !transcribe_by_type, Ht; reflexivity.
Qed.

Lemma transcribe_ignores_other_backend_witness :
  transcribe Fixtures.format_type Fixtures.lengths_backend
    Fixtures.failing_backend Fixtures.en_kaldi Fixtures.settings0 7%N
    Fixtures.machine_442
  = transcribe Fixtures.format_type Fixtures.lengths_backend
      Fixtures.lengths_backend Fixtures.en_kaldi Fixtures.settings0 7%N
      Fixtures.machine_442
  /\ transcribe Fixtures.format_type Fixtures.failing_backend
       Fixtures.lengths_backend Fixtures.en_coqui Fixtures.settings0 7%N
       Fixtures.machine_442
     = transcribe Fixtures.format_type Fixtures.lengths_backend
         Fixtures.lengths_backend Fixtures.en_coqui Fixtures.settings0 7%N
         Fixtures.machine_442.
Proof.
  split.
  - apply (proj1 (transcribe_ignores_other_backend Fixtures.format_type
                    Fixtures.lengths_backend Fixtures.lengths_backend
                    Fixtures.failing_backend Fixtures.lengths_backend
                    Fixtures.en_kaldi Fixtures.settings0 7%N
                    Fixtures.machine_442)).
    reflexivity.
  - apply (proj2 (transcribe_ignores_other_backend Fixtures.format_type
                    Fixtures.failing_backend Fixtures.lengths_backend
                    Fixtures.lengths_backend Fixtures.lengths_backend
                    Fixtures.en_coqui Fixtures.settings0 7%N
                    Fixtures.machine_442)).
    reflexivity.
Defined.

(** ** [main] *)

Ltac unfold_main := unfold main_with_wav, log; simpl.
Ltac unfold_main_top := unfold main.

Section MainFacts.

Context {K World : Type}.
Variable format_type : ModelType -> string.
Variables transcribe_kaldi transcribe_coqui_stt
  : BackendFn AudioStreamGen World.
Variable MODELS : list (K * Model).
Variable wave_open : string -> World -> Outcome Wave_read.
Variable Path : string -> string.
Variable format_args : Args.t -> string.

Local Abbreviation main_with_wav :=
  (main_with_wav format_type transcribe_kaldi transcribe_coqui_stt wave_open).
Local Abbreviation main_for :=
  (main_for format_type transcribe_kaldi transcribe_coqui_stt wave_open).
Local Abbreviation main :=
  (main format_type transcribe_kaldi transcribe_coqui_stt MODELS wave_open
     Path format_args).
Local Abbreviation backend_fn :=
  (backend_fn transcribe_kaldi transcribe_coqui_stt).


Lemma main_with_wav_unsupported args model settings wav_path ms wav_file :
  type model <> KALDI -> type model <> COQUI_STT ->
  wave_open wav_path (world (store (machine ms))) = Returned wav_file ->
  main_with_wav args model settings wav_path ms
  = (Raised (mkExc TranscribingError
               ("Unexpected model type for " +:+ id model +:+ ": "
                  +:+ format_type (type model))),
     {| machine := with_stream args wav_file (machine ms);
        records := records ms |}).
Proof.
  intros Hk Hc Hopen. unfold_main.
  rewrite Hopen, transcribe_no_branch by done. reflexivity.
Qed.




(** The loop over two lists of paths, one after the other. *)
Lemma main_for_app args model settings wavs1 wavs2 ms :
  main_for args model settings (wavs1 ++ wavs2) ms
  = match main_for args model settings wavs1 ms with
    | (Returned _, ms') => main_for args model settings wavs2 ms'
    | (Raised e, ms') => (Raised e, ms')
    end.
Proof.
  revert ms. induction wavs1 as [|w wavs1 IH]; intros ms; simpl; [done|].
  destruct (main_with_wav args model settings w ms) as [[u|e] ms1]; [|done].
  apply IH.
Qed.


(** X6. The loop stops at the first path that fails: the paths after it
    are not opened, and the state is the one the failing turn left. *)
Theorem main_for_stops_at_first_failure args model settings
    wavs1 wav_path wavs2 ms ms1 e ms2 :
  main_for args model settings wavs1 ms = (Returned tt, ms1) ->
  main_with_wav args model settings wav_path ms1 = (Raised e, ms2) ->
  main_for args model settings (wavs1 ++ wav_path :: wavs2) ms
  = (Raised e, ms2).
Proof.
  intros H1 H2. rewrite main_for_app, H1. simpl. by rewrite H2.
Qed.





(** X9. With a model id that no registered model has, [main] raises the
    [AssertionError] before any file is opened: the machine is as it was,
    and nothing but the debug record is logged. *)
Theorem main_unknown_model args ms :
  (forall k m, (k, m) ∈ MODELS -> id m <> Args.model args) ->
  main args ms
  = (Raised (mkExc AssertionError
               ("Unknown model id: " +:+ Args.model args)),
     {| machine := machine ms;
        records :=
          log (Args.debug args) DEBUG (format_args args) (records ms) |}).
Proof.
  intros Hno. unfold_main_top.
  unfold resolve_model. by rewrite find_model_none.
Qed.

(** X10. With a registered model of a type that is neither KALDI nor
    COQUI_STT, [main] fails on the first path, once the file is opened:
    [TranscribingError] is raised, no backend is invoked, nothing is read
    from the file, no text is logged and the paths after it are not
    opened. *)
Theorem main_unsupported_type args ms model wav_path wavs wav_file :
  resolve_model MODELS (Args.model args) = Returned model ->
  type model <> KALDI -> type model <> COQUI_STT ->
  Args.wav args = wav_path :: wavs ->
  wave_open wav_path (world (store (machine ms))) = Returned wav_file ->
  main args ms
  = (Raised (mkExc TranscribingError
               ("Unexpected model type for " +:+ id model +:+ ": "
                  +:+ format_type (type model))),
     {| machine := with_stream args wav_file (machine ms);
        records :=
          log (Args.debug args) DEBUG (format_args args) (records ms) |})
  /\ calls (machine (main args ms).2) = calls (machine ms)
  /\ streams (store (machine (main args ms).2)) !! new_stream (machine ms)
     = Some {| gen_chunk_size := Args.chunk_size args;
               gen_f := wav_file;
               gen_finished := false |}.
Proof.
  intros Hres Hk Hc Hwav Hopen.
  assert (main args ms
          = (Raised (mkExc TranscribingError
                       ("Unexpected model type for " +:+ id model +:+ ": "
                          +:+ format_type (type model))),
             {| machine := with_stream args wav_file (machine ms);
                records :=
                  log (Args.debug args) DEBUG (format_args args)
                    (records ms) |})) as Hmain.
  { unfold_main_top. rewrite Hres, Hwav. simpl.
    rewrite (main_with_wav_unsupported _ _ _ _ _ wav_file) by done.
    reflexivity. }
  rewrite Hmain. repeat split. simpl. apply lookup_insert_eq.
Qed.

(** The log is only written to: a turn of the loop does the same on any
    records, and adds the same ones, whether [--debug] is given or not. *)
Lemma main_with_wav_frame args args' model settings wav_path mu r r' :
  Args.chunk_size args = Args.chunk_size args' ->
  exists o mu' d,
    main_with_wav args model settings wav_path
      {| machine := mu; records := r |}
    = (o, {| machine := mu'; records := r ++ d |})
    /\ main_with_wav args' model settings wav_path
         {| machine := mu; records := r' |}
       = (o, {| machine := mu'; records := r' ++ d |}).
Proof.
  intros Hcs. unfold_main. unfold with_stream. rewrite Hcs.
  destruct (wave_open wav_path (world (store mu))) as [wav_file|e].
  2: { exists (Raised e), mu, []. by rewrite !app_nil_r. }
  match goal with |- context [transcribe ?f ?k ?c ?m ?s ?a ?st] =>
    destruct (transcribe f k c m s a st) as [[text|e] mu'] end.
  - by exists (Returned tt), mu', [mkLogRecord INFO (wav_path +:+ ": " +:+ text)].
  - exists (Raised e), mu', []. by rewrite !app_nil_r.
Qed.

Lemma main_for_frame args args' model settings wavs mu r r' :
  Args.chunk_size args = Args.chunk_size args' ->
  exists o mu' d,
    main_for args model settings wavs {| machine := mu; records := r |}
    = (o, {| machine := mu'; records := r ++ d |})
    /\ main_for args' model settings wavs {| machine := mu; records := r' |}
       = (o, {| machine := mu'; records := r' ++ d |}).
Proof.
  intros Hcs. revert mu r r'.
  induction wavs as [|w wavs IH]; intros mu r r'; simpl.
  { exists (Returned tt), mu, []. by rewrite !app_nil_r. }
  destruct (main_with_wav_frame args args' model settings w mu r r' Hcs)
    as (o & mu1 & d1 & -> & ->).
  destruct o as [u|e].
  - destruct (IH mu1 (r ++ d1) (r' ++ d1)) as (o & mu2 & d2 & -> & ->).
    exists o, mu2, (d1 ++ d2). by rewrite !app_assoc.
  - by exists (Raised e), mu1, d1.
Qed.

(** X17. [--debug] changes nothing but the log: with it and without it
    [main] comes to the same outcome on the same machine state, and logs
    the same records, with the debug record of the arguments before them
    when it is given. *)
Theorem main_debug_only_logs args ms :
  (main (Args.with_debug true args) ms).1
  = (main (Args.with_debug false args) ms).1
  /\ machine (main (Args.with_debug true args) ms).2
     = machine (main (Args.with_debug false args) ms).2
  /\ exists rs : list LogRecord,
       records (main (Args.with_debug false args) ms).2 = records ms ++ rs
       /\ records (main (Args.with_debug true args) ms).2
          = records ms
            ++ mkLogRecord DEBUG (format_args (Args.with_debug true args))
               :: rs.
Proof.
  unfold_main_top. unfold log, main_settings. simpl.
  destruct (resolve_model MODELS (Args.model args)) as [model|e]; simpl.
  2: { repeat split. exists []. by rewrite app_nil_r. }
  match goal with |- context [main_for _ model ?s _ _] =>
    destruct (main_for_frame (Args.with_debug true args)
                (Args.with_debug false args) model s (Args.wav args)
                (machine ms)
                (records ms
                 ++ [mkLogRecord DEBUG
                       (format_args (Args.with_debug true args))])
                (records ms) eq_refl)
      as (o & mu' & d & -> & ->) end.
  simpl. repeat split. exists d. split; [done|].
  by rewrite <- app_assoc.
Qed.

End MainFacts.

(** ** The theorems about [main] on the sample data *)


Lemma main_for_stops_at_first_failure_witness :
  main_for Fixtures.format_type MainFixtures.lengths_backend
    MainFixtures.failing_backend MainFixtures.wave_open
    (MainFixtures.args ["ten.wav"; "no.wav"; "six.wav"] "en_US-rhasspy" false)
    Fixtures.en_kaldi Fixtures.settings0
    (["ten.wav"] ++ "no.wav" :: ["six.wav"]) MainFixtures.start
  = (Raised (mkExc (OtherError "FileNotFoundError") "no.wav"),
     (main_for Fixtures.format_type MainFixtures.lengths_backend
        MainFixtures.failing_backend MainFixtures.wave_open
        (MainFixtures.args ["ten.wav"; "no.wav"; "six.wav"] "en_US-rhasspy"
           false)
        Fixtures.en_kaldi Fixtures.settings0 ["ten.wav"]
        MainFixtures.start).2).
Proof.
  apply (main_for_stops_at_first_failure Fixtures.format_type
           MainFixtures.lengths_backend MainFixtures.failing_backend
           MainFixtures.wave_open
           (MainFixtures.args ["ten.wav"; "no.wav"; "six.wav"]
              "en_US-rhasspy" false)
           Fixtures.en_kaldi Fixtures.settings0 ["ten.wav"] "no.wav"
           ["six.wav"] MainFixtures.start
           (main_for Fixtures.format_type MainFixtures.lengths_backend
              MainFixtures.failing_backend MainFixtures.wave_open
              (MainFixtures.args ["ten.wav"; "no.wav"; "six.wav"]
                 "en_US-rhasspy" false)
              Fixtures.en_kaldi Fixtures.settings0 ["ten.wav"]
              MainFixtures.start).2).
  - vm_compute. reflexivity.
  - vm_compute. reflexivity.
Defined.


Lemma main_unknown_model_witness :
  MainFixtures.main (MainFixtures.args ["ten.wav"] "de_DE-zamia" true)
  = (Raised (mkExc AssertionError "Unknown model id: de_DE-zamia"),
     {| machine := machine MainFixtures.start;
        records := [mkLogRecord DEBUG "Namespace(...)"] |}).
Proof.
  apply (main_unknown_model Fixtures.format_type MainFixtures.lengths_backend
           MainFixtures.failing_backend MainFixtures.MODELS
           MainFixtures.wave_open MainFixtures.Path MainFixtures.format_args
           (MainFixtures.args ["ten.wav"] "de_DE-zamia" true)
           MainFixtures.start).
  intros k m Hin. apply list_elem_of_In in Hin.
  destruct Hin as [[= _ <-]|[[= _ <-]|[[= _ <-]|[]]]]; discriminate.
Defined.

Lemma main_unsupported_type_witness :
  MainFixtures.main
    (MainFixtures.args ["ten.wav"; "six.wav"] "en_US-vosk" false)
  = (Raised (mkExc TranscribingError
               "Unexpected model type for en_US-vosk: vosk"),
     {| machine :=
          {| store :=
               {| streams := {[ 0%N := audio_stream 2 (Fixtures.wav 10) ]};
                  world := tt |};
             calls := [] |};
        records := [] |}).
Proof.
  refine (eq_trans
            (proj1 (main_unsupported_type Fixtures.format_type
                      MainFixtures.lengths_backend
                      MainFixtures.failing_backend MainFixtures.MODELS
                      MainFixtures.wave_open MainFixtures.Path
                      MainFixtures.format_args
                      (MainFixtures.args ["ten.wav"; "six.wav"] "en_US-vosk"
                         false)
                      MainFixtures.start Fixtures.en_vosk "ten.wav"
                      ["six.wav"] (Fixtures.wav 10) _ _ _ _ _)) _).
  - reflexivity.
  - discriminate.
  - discriminate.
  - reflexivity.
  - reflexivity.
  - vm_compute. reflexivity.
Defined.

(** ** The audio stream and the bytes of the file *)


Lemma Chunk_read_through {F : Type} `{FileLike F} (c : Chunk F) :
  (chunksize c <= size_read c)%Z -> spent c.
Proof.
  intros Hdone size. unfold read, Chunk_read.
  by destruct (Z.leb_spec (chunksize c) (size_read c)); [|lia].
Qed.

Section ChunkOrder.

Context {F : Type} `{FileLike F}.
Variable content : F -> bytes.

Hypothesis inner_order :
  forall (size : Z) (f : F),
    exists r : bytes,
      content f = (read size f).1 ++ r
      /\ (content (read size f).2 = r \/ spent (read size f).2).



End ChunkOrder.









(** ** The audio stream over an intact file *)

(** A read of [n] bytes that the RIFF chunk and the file still hold. *)
Lemma Riff_read_within (r : Chunk RawFile) (n : Z) :
  (0 <= n)%Z ->
  (0 < chunksize r - size_read r)%Z ->
  (n <= chunksize r - size_read r)%Z ->
  (n <= len (rest (file r)))%Z ->
  (read n r).1 = take (Z.to_nat n) (rest (file r))
  /\ ((n < chunksize r - size_read r)%Z ->
      (read n r).2
      = mkChunk (chunksize r) (size_read r + n) (align r)
          (mkRawFile (drop (Z.to_nat n) (rest (file r))))).
Proof.
  intros Hn Hleft Hle Hraw. unfold read at 1 2, Chunk_read.
  destruct (Z.leb_spec (chunksize r) (size_read r)) as [?|_]; [lia|].
  destruct (Z.ltb_spec n 0) as [?|_]; [lia|].
  destruct (Z.ltb_spec (chunksize r - size_read r) n) as [?|_]; [lia|].
  unfold read, RawFile_read.
  destruct (Z.ltb_spec n 0) as [?|_]; [lia|].
  assert (len (take (Z.to_nat n) (rest (file r))) = n) as Hlen.
  { unfold len in *. rewrite length_take. lia. }
  rewrite Hlen.
  destruct (Z.eqb_spec (size_read r + n) (chunksize r)) as [Hfull|Hnot]; simpl.
  - destruct (align r && Z.odd (chunksize r)); simpl.
    + destruct (1 <? 0)%Z; simpl;
        (split; [reflexivity | intros; exfalso; lia]).
    + split; [reflexivity | intros; exfalso; lia].
  - split; [reflexivity | reflexivity].
Qed.

(** How many bytes a read of [size] takes when [left] are left in the
    chunk. *)
Definition taken (size left : Z) : Z :=
  if (size <? 0)%Z then left else Z.min size left.

Lemma DataChunk_read_intact (c : DataChunk) (size : Z) :
  let left := (chunksize c - size_read c)%Z in
  let n := taken size left in
  (0 < left)%Z ->
  (left <= chunksize (file c) - size_read (file c))%Z ->
  (left <= len (raw_rest c))%Z ->
  (read size c).1 = take (Z.to_nat n) (raw_rest c)
  /\ chunksize (read size c).2 = chunksize c
  /\ ((n < left)%Z ->
      size_read (read size c).2 = (size_read c + n)%Z
      /\ chunksize (file (read size c).2) = chunksize (file c)
      /\ size_read (file (read size c).2) = (size_read (file c) + n)%Z
      /\ raw_rest (read size c).2 = drop (Z.to_nat n) (raw_rest c))
  /\ (n = left -> (chunksize c <= size_read (read size c).2)%Z).
Proof.
  intros left n Hleft Hriff Hraw. subst left n. unfold taken, raw_rest in *.
  set (n := if (size <? 0)%Z then (chunksize c - size_read c)%Z
            else Z.min size (chunksize c - size_read c)).
  assert (0 <= n <= chunksize c - size_read c)%Z as Hn.
  { subst n. destruct (Z.ltb_spec size 0); lia. }
  remember (read size c) as res eqn:Hres.
  unfold read in Hres. unfold Chunk_read at 1 in Hres.
  destruct (Z.leb_spec (chunksize c) (size_read c)) as [?|_]; [lia|].
  replace (if (chunksize c - size_read c
               <? (if (size <? 0)%Z
                   then (chunksize c - size_read c)%Z else size))%Z
           then (chunksize c - size_read c)%Z
           else if (size <? 0)%Z then (chunksize c - size_read c)%Z else size)
    with n in Hres.
  2: { subst n. destruct (Z.ltb_spec size 0).
       - by rewrite Z.ltb_irrefl.
       - destruct (Z.ltb_spec (chunksize c - size_read c) size); lia. }
  destruct (Riff_read_within (file c) n) as (Hdata & Hstate); try lia.
  change (Chunk_read n (file c)) with (read n (file c)) in Hres.
  destruct (read n (file c)) as [data riff] eqn:Hread. simpl in *.
  assert (len data = n) as Hlen.
  { subst data. unfold len in *. rewrite length_take. lia. }
  rewrite Hlen in Hres.
  destruct (Z.eqb_spec (size_read c + n) (chunksize c)) as [Hfull|Hnot];
    simpl in Hres.
  - destruct (align c && Z.odd (chunksize c)); simpl in Hres.
    + destruct (read 1%Z riff) as [dummy riff0]. subst res. simpl.
      split; [done|]. split; [done|].
      split; [intros; exfalso; lia | intros; unfold len; lia].
    + subst res. simpl. split; [done|]. split; [done|].
      split; [intros; exfalso; lia | intros; lia].
  - subst res. simpl.
    split; [done|]. split; [done|]. split; [|intros; exfalso; lia].
    intros Hlt. rewrite (Hstate ltac:(lia)). done.
Qed.

Lemma taken_bounds (size left : Z) :
  (size <> 0)%Z -> (0 < left)%Z -> (0 < taken size left <= left)%Z.
Proof. intros Hs Hl. unfold taken. destruct (Z.ltb_spec size 0); lia. Qed.

Lemma readframes_read_through (f : Wave_read) (nframes : Z) :
  (data_left f <= 0)%Z -> (readframes f nframes).1 = [].
Proof.
  intros Hdone. unfold readframes. destruct (nframes =? 0)%Z; [reflexivity|].
  rewrite (Chunk_read_through (_data_chunk f)); [reflexivity|].
  unfold data_left in Hdone. lia.
Qed.

(** One [readframes] on an intact file that has data left. *)
Lemma readframes_intact (f : Wave_read) (nframes : Z) :
  let n := taken (nframes * _framesize f) (data_left f) in
  let f' := (readframes f nframes).2 in
  (nframes <> 0)%Z -> (0 < _framesize f)%Z -> intact f ->
  (0 < data_left f)%Z ->
  len (readframes f nframes).1 = n
  /\ data_rest f = (readframes f nframes).1 ++ data_rest f'
  /\ intact f'
  /\ (n = data_left f -> (data_left f' <= 0)%Z).
Proof.
  intros n f' Hnz Hfs Hintact Hleft.
  destruct (Hintact Hleft) as [Hriff Hraw].
  assert (0 < n <= data_left f)%Z as Hn by (apply taken_bounds; lia).
  destruct (DataChunk_read_intact (_data_chunk f) (nframes * _framesize f)%Z
              Hleft Hriff Hraw) as (Hdata & Hcs & Hlt & Heq).
  fold (data_left f) in Hdata, Hlt, Heq. fold n in Hdata, Hlt, Heq.
  assert ((readframes f nframes).1
          = (read (nframes * _framesize f)%Z (_data_chunk f)).1
          /\ _data_chunk f'
             = (read (nframes * _framesize f)%Z (_data_chunk f)).2)
    as [Hfst Hsnd].
  { subst f'. unfold readframes.
    destruct (Z.eqb_spec nframes 0) as [?|_]; [done|].
    by destruct (read (nframes * _framesize f)%Z (_data_chunk f)). }
  rewrite Hfst, Hdata. unfold data_rest, intact, data_left. rewrite Hsnd, Hcs.
  fold (data_left f).
  assert (len (take (Z.to_nat n) (raw_rest (_data_chunk f))) = n) as Hlen.
  { unfold len in *. rewrite length_take. lia. }
  split; [exact Hlen|].
  destruct (Z.eq_dec n (data_left f)) as [Hall|Hsome].
  - specialize (Heq Hall). unfold data_left in Hall |- *.
    replace (Z.to_nat (chunksize (_data_chunk f)
                       - size_read (read (nframes * _framesize f)%Z
                                      (_data_chunk f)).2)) with 0%nat by lia.
    rewrite take_0, app_nil_r, <- Hall.
    split; [reflexivity|]. split; [intros ?; lia | intros _; lia].
  - destruct Hlt as (Hsr & Hrcs & Hrsr & Hrest); [lia|].
    rewrite Hsr, Hrcs, Hrsr, Hrest.
    split; [|split; [|intros ?; lia]].
    + rewrite take_take_drop. f_equal. unfold data_left in *. lia.
    + intros _. unfold len in *. rewrite length_drop.
      unfold data_left in *. lia.
Qed.

(** One resumption of a running generator over an intact file. *)
Lemma audio_stream_step_intact (g : AudioStreamGen) :
  let left := data_left (gen_f g) in
  let n := taken (gen_chunk_size g * _framesize (gen_f g)) left in
  gen_finished g = false ->
  (gen_chunk_size g <> 0)%Z -> (0 < _framesize (gen_f g))%Z ->
  intact (gen_f g) ->
  ((left <= 0)%Z -> (anext g).1 = None)
  /\ ((0 < left)%Z ->
      exists chunk g',
        anext g = (Some chunk, g')
        /\ gen_finished g' = false
        /\ gen_chunk_size g' = gen_chunk_size g
        /\ _framesize (gen_f g') = _framesize (gen_f g)
        /\ intact (gen_f g')
        /\ data_rest (gen_f g) = chunk ++ data_rest (gen_f g')
        /\ len chunk = n
        /\ (n = left -> (data_left (gen_f g') <= 0)%Z)).
Proof.
  intros left n Hrun Hcs Hfs Hintact. split.
  - intros Hdone. apply audio_stream_stops_iff; [done|].
    by apply readframes_read_through.
  - intros Hleft.
    destruct (readframes_intact (gen_f g) (gen_chunk_size g) Hcs Hfs Hintact
                Hleft) as (Hlen & Hrest & Hintact' & Hall).
    fold left in Hlen, Hall. fold n in Hlen, Hall.
    assert (0 < n <= left)%Z as Hn by (apply taken_bounds; lia).
    exists (readframes (gen_f g) (gen_chunk_size g)).1,
      (mkGen (gen_chunk_size g)
         (readframes (gen_f g) (gen_chunk_size g)).2 false).
    split.
    { unfold anext, AudioStreamGen_iterable.
      rewrite audio_stream_anext_running by done. simpl.
      destruct (readframes (gen_f g) (gen_chunk_size g)).1 as [|x c] eqn:Hc;
        [|reflexivity].
      unfold len in Hlen. simpl in Hlen. lia. }
    simpl. rewrite readframes_framesize. auto 10.
Qed.


Lemma async_for_read_through (fuel : nat) (g : AudioStreamGen) :
  gen_finished g = false ->
  (gen_chunk_size g <> 0)%Z -> (0 < _framesize (gen_f g))%Z ->
  intact (gen_f g) ->
  (data_left (gen_f g) <= 0)%Z ->
  (async_for fuel g).1.1 = [].
Proof.
  intros Hrun Hcs Hfs Hintact Hdone.
  destruct fuel as [|fuel]; [reflexivity|]. simpl.
  pose proof (proj1 (audio_stream_step_intact g Hrun Hcs Hfs Hintact) Hdone)
    as Hnone.
  destruct (anext g) as [[chunk|] g']; [discriminate | reflexivity].
Qed.


Lemma async_for_full_chunks (fuel : nat) (g : AudioStreamGen) :
  gen_finished g = false ->
  (0 < gen_chunk_size g)%Z -> (0 < _framesize (gen_f g))%Z ->
  intact (gen_f g) ->
  forall (i : nat) (chunk : bytes),
    (async_for fuel g).1.1 !! i = Some chunk ->
    S i < length (async_for fuel g).1.1 ->
    len chunk = (gen_chunk_size g * _framesize (gen_f g))%Z.
Proof.
  revert g. induction fuel as [|fuel IH]; intros g Hrun Hcs Hfs Hintact i chunk;
    [simpl; lia|].
  destruct (Z.le_gt_cases (data_left (gen_f g)) 0) as [Hdone|Hleft].
  { rewrite async_for_read_through by (done || lia). simpl. lia. }
  destruct (proj2 (audio_stream_step_intact g Hrun ltac:(lia) Hfs Hintact))
    as (c & g' & Hnext & Hrun' & Hcs' & Hfs' & Hintact' & _ & Hlen & Hall);
    [lia|].
  simpl. rewrite Hnext.
  specialize (IH g' Hrun'). rewrite Hcs', Hfs' in IH.
  specialize (IH Hcs Hfs Hintact').
  pose proof (async_for_read_through fuel g' Hrun') as Hnil.
  rewrite Hcs', Hfs' in Hnil. specialize (Hnil ltac:(lia) Hfs Hintact').
  destruct (async_for fuel g') as [[chunks g''] stopped]. simpl in *.
  destruct i as [|i]; simpl.
  - intros [= <-] Hmore. rewrite Hlen. unfold taken in *.
    destruct (Z.ltb_spec (gen_chunk_size g * _framesize (gen_f g)) 0);
      [nia|].
    destruct (Z.min_spec (gen_chunk_size g * _framesize (gen_f g))
                (data_left (gen_f g))) as [[_ ->]|[_ Hmin]]; [done|].
    rewrite Hmin in Hall. rewrite Hnil in Hmore by auto. simpl in Hmore. lia.
  - intros Hi Hmore. apply (IH i chunk Hi). lia.
Qed.



(** X14. Over an intact file and with a positive chunk size, every chunk
    the stream delivers, but for the last one, has exactly chunk-size
    frames. *)
Theorem audio_stream_full_chunks (chunk_size : Z) (f : Wave_read)
    (i : nat) (chunk : bytes) :
  (0 < chunk_size)%Z -> (0 < _framesize f)%Z -> intact f ->
  (async_for (wav_fuel f) (audio_stream chunk_size f)).1.1 !! i = Some chunk ->
  S i < length (async_for (wav_fuel f) (audio_stream chunk_size f)).1.1 ->
  len chunk = (chunk_size * _framesize f)%Z
  /\ frames_in f chunk = chunk_size.
Proof.
  intros Hcs Hfs Hintact Hi Hmore.
  pose proof (async_for_full_chunks (wav_fuel f) (audio_stream chunk_size f)
                eq_refl Hcs Hfs Hintact i chunk Hi Hmore) as Hlen.
  simpl in Hlen. split; [exact Hlen|].
  unfold frames_in. rewrite Hlen. apply Z.div_mul. lia.
Qed.



Lemma audio_stream_full_chunks_witness :
  len (Fixtures.b 4) = (2 * _framesize (Fixtures.wav 10))%Z
  /\ frames_in (Fixtures.wav 10) (Fixtures.b 4) = 2%Z.
Proof.
  apply (audio_stream_full_chunks 2 (Fixtures.wav 10) 1 (Fixtures.b 4)).
  - lia.
  - reflexivity.
  - intros _. split; vm_compute; discriminate.
  - reflexivity.
  - vm_compute. lia.
Defined.


(** ** Once the stream has stopped *)

Lemma async_for_more_fuel {S : Type} `{AsyncIterable S} (fuel more : nat)
    (s : S) :
  (async_for fuel s).2 = true -> async_for (fuel + more) s = async_for fuel s.
Proof.
  revert s. induction fuel as [|fuel IH]; intros s; simpl; [discriminate|].
  destruct (anext s) as [[chunk|] s']; [|reflexivity].
  intros Hstop. specialize (IH s').
  destruct (async_for fuel s') as [[chunks s''] stopped]. simpl in *.
  by rewrite IH.
Qed.

(** X16. The stream is single-use and its reading is complete: once it has
    been read through, reading it with more turns delivers the same chunks,
    and iterating the finished generator again delivers nothing and leaves
    it, and the file, as they are. *)
Theorem audio_stream_single_use (chunk_size : Z) (f : Wave_read)
    (more : nat) :
  async_for (wav_fuel f + more) (audio_stream chunk_size f)
  = async_for (wav_fuel f) (audio_stream chunk_size f)
  /\ async_for (S more)
       (async_for (wav_fuel f) (audio_stream chunk_size f)).1.2
     = ([], (async_for (wav_fuel f) (audio_stream chunk_size f)).1.2, true).
Proof.
  destruct (audio_stream_runs_out (wav_fuel f) (audio_stream chunk_size f))
    as (Hstop & Hfin & _); [unfold wav_fuel; simpl; lia|].
  split; [by apply async_for_more_fuel|].
  generalize dependent (async_for (wav_fuel f) (audio_stream chunk_size f)).
  intros [[chunks g] stopped] _ Hfin. simpl in *.
  unfold anext, AudioStreamGen_iterable, audio_stream_anext.
  by rewrite Hfin.
Qed.
